(** * preprocess_dem.py: resampling a DEM raster to a JSON grid

    A shallow embedding of [src/preprocess_dem.py] and of the numpy
    functions it calls ([np.linspace], [np.isclose]), followed by the
    properties of the grid it writes.  The script is embedded twice.

    Exact numbers.  The first embedding models Python floats as exact
    rationals extended with the IEEE special values (infinities and
    NaN).  The special values follow IEEE-754; on finite values the
    arithmetic is exact: rounding, overflow and the sign of zero are not
    modelled, and the conversion [astype(np.float32)] keeps every value.
    Results are kept in lowest terms ([Qred]).  The raster and the
    document live in a [World] that [main] transforms, and opening the
    output file is taken to succeed.  This embedding carries the
    properties that rounding cannot change: the shape of the output, the
    failures on the requested size, the scenario of the specification,
    whose values are exact in single and double precision, the
    comparisons with a NaN or an infinite nodata value, the last
    coordinate, and the axes of a box without width.

    Binary64.  The second embedding, [Module IEEE], computes as Python
    does: floats are binary64 numbers with correctly rounded operations,
    [astype(np.float32)] rounds to single precision, rasters and
    documents share one file system, and opening the output file may
    fail.  It carries the properties that depend on the values computed:
    the nodata substitution, the axes, resampling at the size of the
    source, and how a run ends.

    Exceptions are results of the error monad [result].  What the script
    prints (the CRS, the bounds, the CRS advisory) does not reach the
    document and is left out.

    The reader.  [src.read] is rasterio's; [main] is embedded over an
    arbitrary reader, and a reader that follows the resampling step of
    the specification is given after it. *)

From Stdlib Require Import ZArith QArith Qabs Lia Lqa.
From Stdlib Require Import Floats.SpecFloat.
From stdpp Require Import base option list strings gmap.

Open Scope Z_scope.

(** ** Exceptions and results *)

(** The Python exceptions the script can meet, and the two conditions
    that the specification names for a source and for a request that
    cannot be served. *)
Inductive exn : Type :=
  | RasterioIOError
  | ValueError
  | TypeError
  | IndexError
  | EmptySource
  | InvalidDimension.

Inductive result (A : Type) : Type :=
  | Ok (a : A)
  | Raise (e : exn).
Arguments Ok {A} a.
Arguments Raise {A} e.

#[global] Instance result_ret : MRet result := λ A a, Ok a.
#[global] Instance result_bind : MBind result := λ A B f m,
  match m with Ok a => f a | Raise e => Raise e end.
#[global] Instance result_fmap : FMap result := λ A B f m,
  match m with Ok a => Ok (f a) | Raise e => Raise e end.

(** ** Python floats *)

Inductive pyfloat : Type :=
  | Fin (q : Q)
  | Inf (neg : bool)
  | NaN.

Definition qneg (q : Q) : bool := (Qnum q <? 0)%Z.

Definition of_int (z : Z) : pyfloat := Fin (inject_Z z).

Definition isfinite (x : pyfloat) : bool :=
  match x with Fin _ => true | _ => false end.

Definition fneg (x : pyfloat) : pyfloat :=
  match x with
  | Fin q => Fin (- q)
  | Inf s => Inf (negb s)
  | NaN => NaN
  end.

Definition fabs (x : pyfloat) : pyfloat :=
  match x with
  | Fin q => Fin (Qabs q)
  | Inf _ => Inf false
  | NaN => NaN
  end.

Definition fadd (x y : pyfloat) : pyfloat :=
  match x, y with
  | NaN, _ | _, NaN => NaN
  | Inf s, Inf s' => if Bool.eqb s s' then Inf s else NaN
  | Inf s, Fin _ => Inf s
  | Fin _, Inf s => Inf s
  | Fin a, Fin b => Fin (Qred (a + b))
  end.

Definition fsub (x y : pyfloat) : pyfloat := fadd x (fneg y).

Definition fmul (x y : pyfloat) : pyfloat :=
  match x, y with
  | NaN, _ | _, NaN => NaN
  | Inf s, Inf s' => Inf (xorb s s')
  | Inf s, Fin q | Fin q, Inf s =>
      if Qeq_bool q 0 then NaN else Inf (xorb s (qneg q))
  | Fin a, Fin b => Fin (Qred (a * b))
  end.

Definition fdiv (x y : pyfloat) : pyfloat :=
  match x, y with
  | NaN, _ | _, NaN => NaN
  | Inf _, Inf _ => NaN
  | Inf s, Fin q => Inf (xorb s (qneg q))
  | Fin _, Inf _ => Fin 0
  | Fin a, Fin b =>
      if Qeq_bool b 0
      then (if Qeq_bool a 0 then NaN else Inf (qneg a))
      else Fin (Qred (a / b))
  end.

(** Python's [x == y], [x <= y] and [x < y] on floats: every comparison
    with NaN is false. *)
Definition feqb (x y : pyfloat) : bool :=
  match x, y with
  | Fin a, Fin b => Qeq_bool a b
  | Inf s, Inf s' => Bool.eqb s s'
  | _, _ => false
  end.

Definition fleb (x y : pyfloat) : bool :=
  match x, y with
  | NaN, _ | _, NaN => false
  | Fin a, Fin b => Qle_bool a b
  | Inf s, Inf s' => s || negb s'
  | Inf s, Fin _ => s
  | Fin _, Inf s => negb s
  end.

Definition fltb (x y : pyfloat) : bool := fleb x y && negb (feqb x y).

(** ** numpy *)

(** [np.isclose(a, b)] with the default [rtol=1e-05], [atol=1e-08] and
    [equal_nan=False]:
    [less_equal(abs(x - y), atol + rtol * abs(y)) & isfinite(y) | (x == y)]. *)
Definition rtol : pyfloat := Fin (1 # 100000).
Definition atol : pyfloat := Fin (1 # 100000000).

Definition isclose (x y : pyfloat) : bool :=
  (fleb (fabs (fsub x y)) (fadd atol (fmul rtol (fabs y))) && isfinite y)
  || feqb x y.

(** [np.arange(0, num)] as floats. *)
Definition arange (num : nat) : list pyfloat :=
  (λ k, of_int (Z.of_nat k)) <$> seq 0 num.

(** [np.linspace(start, stop, num)] with [endpoint=True]:
<<
    if num < 0: raise ValueError
    div = num - 1
    delta = stop - start
    y = arange(0, num)
    if div > 0:
        step = delta / div
        if step == 0: y /= div; y *= delta
        else:         y *= step
    else:
        y = y * delta
    y += start
    if num > 1: y[-1] = stop
>> *)
Definition linspace (start stop : pyfloat) (num : Z) : result (list pyfloat) :=
  if num <? 0 then Raise ValueError else
  let div := num - 1 in
  let delta := fsub stop start in
  let y := arange (Z.to_nat num) in
  let y :=
    if 0 <? div then
      let step := fdiv delta (of_int div) in
      if feqb step (Fin 0)
      then (λ v, fmul (fdiv v (of_int div)) delta) <$> y
      else (λ v, fmul v step) <$> y
    else (λ v, fmul v delta) <$> y in
  let y := (λ v, fadd v start) <$> y in
  let y := if 1 <? num then <[Z.to_nat (num - 1) := stop]> y else y in
  Ok y.

(** ** The data of a run *)

(** A cell of the nested list [elev]: a float, or Python's [None]. *)
Definition cell : Type := option pyfloat.

(** What [rasterio.open] gives access to: the first band, the size, the
    bounds [(left, bottom, right, top)] and the embedded nodata value. *)
Record SourceRaster : Type := {
  band : list (list pyfloat);
  width : nat;
  height : nat;
  bounds : pyfloat * pyfloat * pyfloat * pyfloat;
  src_nodata : option pyfloat
}.

(** The parsed command line. *)
Record Args : Type := {
  input : string;
  output : string;
  nx : Z;
  ny : Z;
  nodata_arg : option pyfloat
}.

(** The dictionary [out] that is dumped as JSON. *)
Record Grid : Type := {
  bbox : list pyfloat;
  ncols : Z;
  nrows : Z;
  lons : list pyfloat;
  lats : list pyfloat;
  elev : list (list cell)
}.

(** The files the script touches: the rasters that can be opened, by
    path, and the JSON documents that have been written, by path. *)
Record World : Type := {
  datasets : gmap string SourceRaster;
  files : gmap string Grid
}.

Definition write (path : string) (doc : Grid) (w : World) : World :=
  {| datasets := datasets w; files := <[path := doc]> (files w) |}.

(** ** The nodata loop *)

(** [ndarray.tolist()] on a two-dimensional array. *)
Definition tolist (a : list (list pyfloat)) : list (list cell) :=
  (λ row : list pyfloat, Some <$> row) <$> a.

(** [ndarray.astype(np.float32)]: rounding to single precision is not
    modelled, the values are kept. *)
Definition astype_float32 (a : list (list pyfloat)) : list (list pyfloat) := a.

(** [np.isclose(row[j], nodata)] on an element of a Python list. *)
Definition isclose_cell (c : cell) (nodata : pyfloat) : result bool :=
  match c with
  | Some x => Ok (isclose x nodata)
  | None => Raise TypeError
  end.

(** [for j in range(len(row)): if np.isclose(row[j], nodata): row[j] = None],
    over the indices [js] still to visit. *)
Fixpoint row_loop (nodata : pyfloat) (js : list nat) (row : list cell)
  : result (list cell) :=
  match js with
  | [] => Ok row
  | j :: js' =>
      match row !! j with
      | None => Raise IndexError
      | Some c =>
          b ← isclose_cell c nodata;
          row_loop nodata js' (if b : bool then <[j := None]> row else row)
      end
  end.

(** [for i in range(len(elev)): row = elev[i]; ...].  The name [row] is an
    alias of the list stored in [elev[i]], so what the inner loop writes
    is written into [elev]. *)
Fixpoint elev_loop (nodata : pyfloat) (ixs : list nat) (elev : list (list cell))
  : result (list (list cell)) :=
  match ixs with
  | [] => Ok elev
  | i :: ixs' =>
      match elev !! i with
      | None => Raise IndexError
      | Some row =>
          row' ← row_loop nodata (seq 0 (length row)) row;
          elev_loop nodata ixs' (<[i := row']> elev)
      end
  end.

Definition replace_nodata (nodata : pyfloat) (elev : list (list cell))
  : result (list (list cell)) :=
  elev_loop nodata (seq 0 (length elev)) elev.

(** ** The script *)

Section Main.

(** [src.read(1, out_shape=(1, ny, nx), resampling=Resampling.bilinear)]
    belongs to rasterio; the script is embedded over any such reader,
    called with the source, [ny] and [nx]. *)
Variable read : SourceRaster → Z → Z → result (list (list pyfloat)).

(** The effective nodata value: the [--nodata] option when it is given,
    else the value embedded in the source. *)
Definition effective_nodata (src : SourceRaster) (args : Args) : option pyfloat :=
  match nodata_arg args with
  | None => src_nodata src
  | Some v => Some v
  end.

(** The body of [with rasterio.open(src_path) as src], up to the
    dictionary [out]: read and cast the band, compute the two axes,
    choose the nodata value, replace it in [elev]. *)
Definition resample (src : SourceRaster) (args : Args) : result Grid :=
  band1 ← astype_float32 <$> read src (ny args) (nx args);
  let '(left_, bottom_, right_, top_) := bounds src in
  lons ← linspace left_ right_ (nx args);
  lats ← linspace top_ bottom_ (ny args);
  let nodata := effective_nodata src args in
  let elev := tolist band1 in
  elev ← match nodata with
         | Some nd => replace_nodata nd elev
         | None => Ok elev
         end;
  Ok {| bbox := [left_; bottom_; right_; top_];
        ncols := nx args;
        nrows := ny args;
        lons := lons;
        lats := lats;
        elev := elev |}.

(** [main]: open the source, build the grid, write it.  An exception
    leaves the [with] block before [open(out_path, 'w')]. *)
Definition main (args : Args) (w : World) : World * result unit :=
  match datasets w !! input args with
  | None => (w, Raise RasterioIOError)
  | Some src =>
      match resample src args with
      | Raise e => (w, Raise e)
      | Ok out => (write (output args) out w, Ok ())
      end
  end.

End Main.

(** ** The raster reader *)

(** Modelled from the spec: the linear map of output indices onto the
    source index space used by rasterio's resampling, which the
    repository does not contain.  Output index [i] of [n] falls at
    [i * (s - 1) / (n - 1)] among [s] source samples, so that index [0]
    maps to source index [0] and index [n - 1] to source index [s - 1];
    the result is the source index below that position and the
    fractional distance to the next one.  A single output index
    ([n = 1]) maps to source index [0]. *)
Definition src_pos (n s i : nat) : nat * pyfloat :=
  if (n <=? 1)%nat then (0%nat, Fin 0)
  else
    let num := (i * (s - 1))%nat in
    ((num / (n - 1))%nat,
     Fin (Qred (Z.of_nat (num mod (n - 1)) # Pos.of_nat (n - 1)))).

(** Modelled from the spec: the weighted average of two neighbouring
    samples, the weight of [b] being the fractional distance [t]. *)
Definition lerp (t a b : pyfloat) : pyfloat :=
  fadd (fmul (fsub (Fin 1) t) a) (fmul t b).

(** The sample in row [r] and column [c] of the band. *)
Definition sample (src : SourceRaster) (r c : nat) : pyfloat :=
  default NaN (band src !! r ≫= λ row : list pyfloat, row !! c).

(** Modelled from the spec: at the boundary the next source index is
    clamped to the last one instead of extrapolating. *)
Definition clamp_next (s i0 : nat) : nat := Nat.min (i0 + 1) (s - 1).

(** Modelled from the spec: bilinear interpolation, the weighted average
    of the up-to-four nearest source cells, along the columns and then
    along the rows. *)
Definition bilinear_cell (src : SourceRaster) (n_rows n_cols i j : nat) : pyfloat :=
  let '(r0, ty) := src_pos n_rows (height src) i in
  let '(c0, tx) := src_pos n_cols (width src) j in
  let r1 := clamp_next (height src) r0 in
  let c1 := clamp_next (width src) c0 in
  lerp ty (lerp tx (sample src r0 c0) (sample src r0 c1))
          (lerp tx (sample src r1 c0) (sample src r1 c1)).

(** Modelled from the spec: [DatasetReader.read] of rasterio with
    [Resampling.bilinear], library code that the repository calls and does
    not contain.  The spec's resampling step: a new array of shape
    [(nrows, ncols)], each output index mapped linearly onto the source
    index space, each cell the weighted average of the up-to-four nearest
    source cells with weights given by the fractional distances, clamped
    at the boundary.  A source of zero width or height has no sample to
    average and is refused as [EmptySource].  The array of the requested
    shape is allocated with numpy, which raises [ValueError] for a
    negative dimension; a shape with a zero entry is a legal one, its
    array has no cell to fill and is returned as it is. *)
Definition bilinear_read (src : SourceRaster) (n_rows n_cols : Z)
  : result (list (list pyfloat)) :=
  if (width src =? 0)%nat || (height src =? 0)%nat then Raise EmptySource
  else if (n_rows <? 0) || (n_cols <? 0) then Raise ValueError
  else
    Ok ((λ i, (λ j, bilinear_cell src (Z.to_nat n_rows) (Z.to_nat n_cols) i j)
                <$> seq 0 (Z.to_nat n_cols))
          <$> seq 0 (Z.to_nat n_rows)).

(** ** Scenario of the specification: a 2x2 raster on the unit square *)

Definition raster22 : SourceRaster :=
  {| band := [[of_int 10; of_int 20]; [of_int 30; of_int 40]];
     width := 2; height := 2;
     bounds := (of_int 0, of_int 0, of_int 1, of_int 1);
     src_nodata := None |}.

Definition args33 : Args :=
  {| input := "data/dem.tif"; output := "data/grid.json";
     nx := 3; ny := 3; nodata_arg := None |}.

Definition world22 : World :=
  {| datasets := {["data/dem.tif" := raster22]}; files := ∅ |}.

(** The same raster with cell [(0, 0)] holding the nodata value [-9999],
    asked for at its own 2x2 resolution. *)
Definition raster_hole : SourceRaster :=
  {| band := [[of_int (-9999); of_int 20]; [of_int 30; of_int 40]];
     width := 2; height := 2;
     bounds := (of_int 0, of_int 0, of_int 1, of_int 1);
     src_nodata := Some (of_int (-9999)) |}.




(** Requests for no column at all, and for a negative number of columns. *)
Definition args_zero : Args :=
  {| input := "data/dem.tif"; output := "data/grid.json";
     nx := 0; ny := 3; nodata_arg := None |}.

Definition args_negative : Args :=
  {| input := "data/dem.tif"; output := "data/grid.json";
     nx := -1; ny := 3; nodata_arg := None |}.

Definition grid_zero : Grid :=
  {| bbox := [of_int 0; of_int 0; of_int 1; of_int 1];
     ncols := 0; nrows := 3;
     lons := [];
     lats := [Fin 1; Fin (1 # 2); Fin 0];
     elev := [[]; []; []] |}.

(** The document of the scenario. *)
Definition grid33 : Grid :=
  {| bbox := [of_int 0; of_int 0; of_int 1; of_int 1];
     ncols := 3; nrows := 3;
     lons := [Fin 0; Fin (1 # 2); Fin 1];
     lats := [Fin 1; Fin (1 # 2); Fin 0];
     elev := [[Some (of_int 10); Some (of_int 15); Some (of_int 20)];
              [Some (of_int 20); Some (of_int 25); Some (of_int 30)];
              [Some (of_int 30); Some (of_int 35); Some (of_int 40)]] |}.

(** Further sources: one whose nodata value is an infinity, one whose box
    is reduced to a point and one whose box is inverted; with the raster
    holding [-9999], they form a world of four rasters. *)
Definition raster_inf : SourceRaster :=
  {| band := [[Inf false; of_int 20]; [of_int 30; of_int 40]];
     width := 2; height := 2;
     bounds := (of_int 0, of_int 0, of_int 1, of_int 1);
     src_nodata := Some (Inf false) |}.

Definition raster_point : SourceRaster :=
  {| band := [[of_int 10; of_int 20]; [of_int 30; of_int 40]];
     width := 2; height := 2;
     bounds := (of_int 5, of_int 7, of_int 5, of_int 7);
     src_nodata := None |}.

Definition raster_flipped : SourceRaster :=
  {| band := [[of_int 10; of_int 20]; [of_int 30; of_int 40]];
     width := 2; height := 2;
     bounds := (of_int 1, of_int 0, of_int 0, of_int 1);
     src_nodata := None |}.

Definition world_more : World :=
  {| datasets :=
       <["data/inf.tif" := raster_inf]>
         (<["data/point.tif" := raster_point]>
            (<["data/flipped.tif" := raster_flipped]>
               {["data/hole.tif" := raster_hole]}));
     files := ∅ |}.


Definition args_point : Args :=
  {| input := "data/point.tif"; output := "data/grid.json";
     nx := 3; ny := 3; nodata_arg := None |}.

Definition args_flipped : Args :=
  {| input := "data/flipped.tif"; output := "data/grid.json";
     nx := 3; ny := 3; nodata_arg := None |}.

Definition args33_hole : Args :=
  {| input := "data/hole.tif"; output := "data/hole.json";
     nx := 3; ny := 3; nodata_arg := None |}.

(** ** Notions used in the statements *)

(** What the loop leaves in the place of a float [x]. *)
Definition subst_cell (nodata x : pyfloat) : cell :=
  if isclose x nodata then None else Some x.

Definition subst_row (nodata : pyfloat) (row : list pyfloat) : list cell :=
  subst_cell nodata <$> row.

(** The cell in row [i] and column [j] of a nested list. *)
Definition cell_at {A} (g : list (list A)) (i j : nat) : option A :=
  g !! i ≫= λ row : list A, row !! j.

(** The nested list [elev] of the document, from the array read. *)
Definition grid_elev (nodata : option pyfloat) (band1 : list (list pyfloat))
  : list (list cell) :=
  match nodata with
  | Some nd => subst_row nd <$> band1
  | None => tolist band1
  end.

(** The contract of [read] for [out_shape]: the array it returns has
    [n_rows] rows of [n_cols] values. *)
Definition reader_shape
  (read : SourceRaster → Z → Z → result (list (list pyfloat))) : Prop :=
  ∀ src n_rows n_cols a,
    read src n_rows n_cols = Ok a →
    Z.of_nat (length a) = n_rows ∧
    Forall (λ row, Z.of_nat (length row) = n_cols) a.

(** Python's [ys[j] == x]. *)
Definition py_eq_at (ys : list pyfloat) (j : nat) (x : pyfloat) : Prop :=
  ∃ v, ys !! j = Some v ∧ feqb v x = true.

(** * The script in IEEE-754 arithmetic *)

(** The embedding above computes with exact rationals, keeps every value
    in [astype(np.float32)] and lets the output file always open.  The
    module below embeds the same script where these matter: Python floats
    are binary64 numbers with correctly rounded operations ([spec_float]
    at precision 53), the cast rounds to binary32, and rasters and
    documents share one file system in which opening a path for writing
    may fail. *)
Module IEEE.

(** ** Python floats: binary64 *)

Definition prec : Z := 53.
Definition emax : Z := 1024.

Definition pyfloat : Type := spec_float.

Definition NaN : pyfloat := S754_nan.

(** [float(z)] for a Python int. *)
Definition of_int (z : Z) : pyfloat := binary_normalize prec emax z 0 false.

Definition fadd : pyfloat → pyfloat → pyfloat := SFadd prec emax.
Definition fsub : pyfloat → pyfloat → pyfloat := SFsub prec emax.
Definition fmul : pyfloat → pyfloat → pyfloat := SFmul prec emax.
Definition fdiv : pyfloat → pyfloat → pyfloat := SFdiv prec emax.
Definition fabs : pyfloat → pyfloat := SFabs.

(** Python's [x == y], [x <= y] and [x < y]: false whenever NaN is
    compared. *)
Definition feqb : pyfloat → pyfloat → bool := SFeqb.
Definition fleb : pyfloat → pyfloat → bool := SFleb.
Definition fltb : pyfloat → pyfloat → bool := SFltb.

Definition isfinite (x : pyfloat) : bool :=
  match x with
  | S754_zero _ | S754_finite _ _ _ => true
  | S754_infinity _ | S754_nan => false
  end.

(** The float literal [n / d] of two small integers, correctly rounded:
    [decimal 1 10] is Python's [0.1]. *)
Definition decimal (n d : Z) : pyfloat := fdiv (of_int n) (of_int d).

(** [np.float32(x)] read back as a Python float: [x] rounded to the
    nearest binary32 number, ties to even, infinite beyond the binary32
    range. *)
Definition float32 (x : pyfloat) : pyfloat :=
  match x with
  | S754_finite s m e =>
      match binary_round 24 128 s m e with
      | S754_finite s' m' e' =>
          binary_normalize prec emax (cond_Zopp s' (Zpos m')) e' s'
      | y => y
      end
  | _ => x
  end.

(** ** Exceptions and results *)

Inductive exn : Type :=
  | RasterioIOError
  | ValueError
  | TypeError
  | IndexError
  | OSError
  | EmptySource
  | InvalidDimension.

Inductive result (A : Type) : Type :=
  | Ok (a : A)
  | Raise (e : exn).
Arguments Ok {A} a.
Arguments Raise {A} e.

#[global] Instance result_ret : MRet result := λ A a, Ok a.
#[global] Instance result_bind : MBind result := λ A B f m,
  match m with Ok a => f a | Raise e => Raise e end.
#[global] Instance result_fmap : FMap result := λ A B f m,
  match m with Ok a => Ok (f a) | Raise e => Raise e end.

(** ** numpy *)

(** [np.isclose(a, b)] with the defaults [rtol=1e-05], [atol=1e-08],
    [equal_nan=False], every operation in binary64:
    [less_equal(abs(x - y), atol + rtol * abs(y)) & isfinite(y) | (x == y)]. *)
Definition rtol : pyfloat := Eval vm_compute in decimal 1 100000.
Definition atol : pyfloat := Eval vm_compute in decimal 1 100000000.

Definition isclose (x y : pyfloat) : bool :=
  (fleb (fabs (fsub x y)) (fadd atol (fmul rtol (fabs y))) && isfinite y)
  || feqb x y.

(** [np.arange(0, num)] as floats. *)
Definition arange (num : nat) : list pyfloat :=
  (λ k, of_int (Z.of_nat k)) <$> seq 0 num.

(** [np.linspace(start, stop, num)] with [endpoint=True]:
<<
    if num < 0: raise ValueError
    div = num - 1
    delta = stop - start
    y = arange(0, num)
    if div > 0:
        step = delta / div
        if step == 0: y /= div; y *= delta
        else:         y *= step
    else:
        y = y * delta
    y += start
    if num > 1: y[-1] = stop
>> *)
Definition linspace (start stop : pyfloat) (num : Z) : result (list pyfloat) :=
  if num <? 0 then Raise ValueError else
  let div := num - 1 in
  let delta := fsub stop start in
  let y := arange (Z.to_nat num) in
  let y :=
    if 0 <? div then
      let step := fdiv delta (of_int div) in
      if feqb step (of_int 0)
      then (λ v, fmul (fdiv v (of_int div)) delta) <$> y
      else (λ v, fmul v step) <$> y
    else (λ v, fmul v delta) <$> y in
  let y := (λ v, fadd v start) <$> y in
  let y := if 1 <? num then <[Z.to_nat (num - 1) := stop]> y else y in
  Ok y.

(** ** The data of a run *)

(** A cell of the nested list [elev]: a float, or Python's [None]. *)
Definition cell : Type := option pyfloat.

(** What [rasterio.open] gives access to: the first band, the size, the
    bounds [(left, bottom, right, top)] and the embedded nodata value. *)
Record SourceRaster : Type := {
  band : list (list pyfloat);
  width : nat;
  height : nat;
  bounds : pyfloat * pyfloat * pyfloat * pyfloat;
  src_nodata : option pyfloat
}.

(** The parsed command line. *)
Record Args : Type := {
  input : string;
  output : string;
  nx : Z;
  ny : Z;
  nodata_arg : option pyfloat
}.

(** The dictionary [out] that is dumped as JSON. *)
Record Grid : Type := {
  bbox : list pyfloat;
  ncols : Z;
  nrows : Z;
  lons : list pyfloat;
  lats : list pyfloat;
  elev : list (list cell)
}.

(** One file system: a path holds a raster or a JSON document.
    [writable path] tells whether [open(path, 'w')] succeeds in this
    world; it does not when the directory is missing or the path may not
    be written, and Python then raises [FileNotFoundError],
    [PermissionError] or [IsADirectoryError], all of them [OSError]. *)
Inductive content : Type :=
  | Raster (src : SourceRaster)
  | Document (doc : Grid).

Record World : Type := {
  fs : gmap string content;
  writable : string → bool
}.

(** [rasterio.open(src_path)]. *)
Definition open_raster (w : World) (path : string) : result SourceRaster :=
  match fs w !! path with
  | Some (Raster src) => Ok src
  | _ => Raise RasterioIOError
  end.

(** [with open(out_path, 'w') as f: json.dump(out, f)]: the document
    replaces whatever the path held. *)
Definition dump (path : string) (doc : Grid) (w : World) : World * result unit :=
  if writable w path
  then ({| fs := <[path := Document doc]> (fs w); writable := writable w |}, Ok ())
  else (w, Raise OSError).

(** ** The nodata loop *)

(** [ndarray.tolist()] on a two-dimensional array. *)
Definition tolist (a : list (list pyfloat)) : list (list cell) :=
  (λ row : list pyfloat, Some <$> row) <$> a.

(** [ndarray.astype(np.float32)]. *)
Definition astype_float32 (a : list (list pyfloat)) : list (list pyfloat) :=
  (λ row : list pyfloat, float32 <$> row) <$> a.

(** [np.isclose(row[j], nodata)] on an element of a Python list. *)
Definition isclose_cell (c : cell) (nodata : pyfloat) : result bool :=
  match c with
  | Some x => Ok (isclose x nodata)
  | None => Raise TypeError
  end.

(** [for j in range(len(row)): if np.isclose(row[j], nodata): row[j] = None],
    over the indices [js] still to visit. *)
Fixpoint row_loop (nodata : pyfloat) (js : list nat) (row : list cell)
  : result (list cell) :=
  match js with
  | [] => Ok row
  | j :: js' =>
      match row !! j with
      | None => Raise IndexError
      | Some c =>
          b ← isclose_cell c nodata;
          row_loop nodata js' (if b : bool then <[j := None]> row else row)
      end
  end.

(** [for i in range(len(elev)): row = elev[i]; ...].  The name [row] is an
    alias of the list stored in [elev[i]], so what the inner loop writes
    is written into [elev]. *)
Fixpoint elev_loop (nodata : pyfloat) (ixs : list nat) (elev : list (list cell))
  : result (list (list cell)) :=
  match ixs with
  | [] => Ok elev
  | i :: ixs' =>
      match elev !! i with
      | None => Raise IndexError
      | Some row =>
          row' ← row_loop nodata (seq 0 (length row)) row;
          elev_loop nodata ixs' (<[i := row']> elev)
      end
  end.

Definition replace_nodata (nodata : pyfloat) (elev : list (list cell))
  : result (list (list cell)) :=
  elev_loop nodata (seq 0 (length elev)) elev.

(** ** The script *)

Section Main.

(** [src.read(1, out_shape=(1, ny, nx), resampling=Resampling.bilinear)]
    belongs to rasterio; the script is embedded over any such reader,
    called with the source, [ny] and [nx]. *)
Variable read : SourceRaster → Z → Z → result (list (list pyfloat)).

(** The body of [with rasterio.open(src_path) as src], up to the
    dictionary [out]. *)
Definition resample (src : SourceRaster) (args : Args) : result Grid :=
  band1 ← astype_float32 <$> read src (ny args) (nx args);
  let '(left_, bottom_, right_, top_) := bounds src in
  lons ← linspace left_ right_ (nx args);
  lats ← linspace top_ bottom_ (ny args);
  let nodata :=
    match nodata_arg args with
    | None => src_nodata src
    | Some v => Some v
    end in
  let elev := tolist band1 in
  elev ← match nodata with
         | Some nd => replace_nodata nd elev
         | None => Ok elev
         end;
  Ok {| bbox := [left_; bottom_; right_; top_];
        ncols := nx args;
        nrows := ny args;
        lons := lons;
        lats := lats;
        elev := elev |}.

(** [main]: open the source, build the grid, open the output and write. *)
Definition main (args : Args) (w : World) : World * result unit :=
  match open_raster w (input args) with
  | Raise e => (w, Raise e)
  | Ok src =>
      match resample src args with
      | Raise e => (w, Raise e)
      | Ok out => dump (output args) out w
      end
  end.

End Main.

(** ** The raster reader *)

(** Modelled from the spec: the linear map of output indices onto the
    source index space used by rasterio's resampling, which the
    repository does not contain.  Output index [i] of [n] falls at
    [i * (s - 1) / (n - 1)] among [s] source samples; the result is the
    source index below that position and the fractional distance to the
    next one.  A single output index maps to source index [0]. *)
Definition src_pos (n s i : nat) : nat * pyfloat :=
  if (n <=? 1)%nat then (0%nat, of_int 0)
  else
    let num := (i * (s - 1))%nat in
    ((num / (n - 1))%nat,
     fdiv (of_int (Z.of_nat (num mod (n - 1)))) (of_int (Z.of_nat (n - 1)))).

(** Modelled from the spec: the weighted average of two neighbouring
    samples, the weight of [b] being the fractional distance [t]. *)
Definition lerp (t a b : pyfloat) : pyfloat :=
  fadd (fmul (fsub (of_int 1) t) a) (fmul t b).

(** The sample in row [r] and column [c] of the band; NaN where the band
    has none. *)
Definition sample (src : SourceRaster) (r c : nat) : pyfloat :=
  default NaN (band src !! r ≫= λ row : list pyfloat, row !! c).

(** Modelled from the spec: at the boundary the next source index is
    clamped to the last one instead of extrapolating. *)
Definition clamp_next (s i0 : nat) : nat := Nat.min (i0 + 1) (s - 1).

(** Modelled from the spec: bilinear interpolation, the weighted average
    of the up-to-four nearest source cells. *)
Definition bilinear_cell (src : SourceRaster) (n_rows n_cols i j : nat) : pyfloat :=
  let '(r0, ty) := src_pos n_rows (height src) i in
  let '(c0, tx) := src_pos n_cols (width src) j in
  let r1 := clamp_next (height src) r0 in
  let c1 := clamp_next (width src) c0 in
  lerp ty (lerp tx (sample src r0 c0) (sample src r0 c1))
          (lerp tx (sample src r1 c0) (sample src r1 c1)).

(** Modelled from the spec: [DatasetReader.read] of rasterio with
    [Resampling.bilinear], library code that the repository calls and does
    not contain: the resampling step of the spec and nothing else.  The
    array of the requested shape is allocated with numpy, which raises
    [ValueError] for a negative dimension; the reader checks neither the
    size of the source nor the positivity of the request. *)
Definition bilinear_read (src : SourceRaster) (n_rows n_cols : Z)
  : result (list (list pyfloat)) :=
  if (n_rows <? 0) || (n_cols <? 0) then Raise ValueError
  else
    Ok ((λ i, (λ j, bilinear_cell src (Z.to_nat n_rows) (Z.to_nat n_cols) i j)
                <$> seq 0 (Z.to_nat n_cols))
          <$> seq 0 (Z.to_nat n_rows)).

(** ** Sources, requests and worlds used below *)

(** A world whose only file is a raster, and in which every path can be
    opened for writing. *)
Definition world_of (path : string) (src : SourceRaster) : World :=
  {| fs := {[path := Raster src]}; writable := λ _, true |}.

Definition request (n_cols n_rows : Z) (nodata : option pyfloat) : Args :=
  {| input := "data/dem.tif"; output := "data/grid.json";
     nx := n_cols; ny := n_rows; nodata_arg := nodata |}.

Definition unit_box : pyfloat * pyfloat * pyfloat * pyfloat :=
  (of_int 0, of_int 0, of_int 1, of_int 1).

(** The 2x2 raster of the specification with [-9999] in cell [(0, 0)],
    marked as nodata by the source. *)
Definition raster_hole : SourceRaster :=
  {| band := [[of_int (-9999); of_int 20]; [of_int 30; of_int 40]];
     width := 2; height := 2;
     bounds := unit_box;
     src_nodata := Some (of_int (-9999)) |}.





Definition raster_wide : SourceRaster :=
  {| band := [[of_int 10; of_int 20]; [of_int 30; of_int 40]];
     width := 2; height := 2;
     bounds := (of_int (- 10 ^ 308), of_int 0, of_int (10 ^ 308), of_int 1);
     src_nodata := None |}.

Definition raster_unit : SourceRaster :=
  {| band := [[of_int 10; of_int 20]; [of_int 30; of_int 40]];
     width := 2; height := 2;
     bounds := unit_box;
     src_nodata := None |}.



(** ** Notions used in the statements *)

(** What the loop leaves in the place of a float [x]. *)
Definition subst_cell (nodata x : pyfloat) : cell :=
  if isclose x nodata then None else Some x.

Definition subst_row (nodata : pyfloat) (row : list pyfloat) : list cell :=
  subst_cell nodata <$> row.

(** The nested list [elev] of the document, from the array [band1]. *)
Definition grid_elev (nodata : option pyfloat) (band1 : list (list pyfloat))
  : list (list cell) :=
  match nodata with
  | Some nd => subst_row nd <$> band1
  | None => tolist band1
  end.

(** The nodata value that the script hands to the loop. *)
Definition effective_nodata (src : SourceRaster) (args : Args) : option pyfloat :=
  match nodata_arg args with
  | None => src_nodata src
  | Some v => Some v
  end.


(** The nodata value in effect for a source and a command line: the
    [--nodata] option when given, else the value embedded in the source. *)
Definition in_effect (src : SourceRaster) (args : Args) (nd : pyfloat) : Prop :=
  nodata_arg args = Some nd ∨
  (nodata_arg args = None ∧ src_nodata src = Some nd).


End IEEE.

(** * Properties *)

(** ** The error monad *)

Lemma bind_Ok {A B} (f : A → result B) (m : result A) (b : B) :
  m ≫= f = Ok b → ∃ a, m = Ok a ∧ f a = Ok b.
Proof. destruct m as [a|e]; [eauto | discriminate]. Qed.

Lemma fmap_Ok {A B} (f : A → B) (m : result A) (b : B) :
  f <$> m = Ok b → ∃ a, m = Ok a ∧ b = f a.
Proof. destruct m as [a|e]; simpl; [intros [= <-]; eauto | discriminate]. Qed.

(** ** The nodata loop is a map over the cells *)

(** The inner loop, started at index [length done] with the cells before
    it already visited and only floats after it. *)
Lemma row_loop_from nodata (rest : list pyfloat) : ∀ done : list cell,
  row_loop nodata (seq (length done) (length rest)) (done ++ (Some <$> rest))
  = Ok (done ++ subst_row nodata rest).
Proof.
  induction rest as [|x rest IH]; intros done; [reflexivity|].
  cbn [length seq row_loop fmap list_fmap].
  rewrite list_lookup_middle by reflexivity.
  cbn [isclose_cell mbind result_bind].
  specialize (IH (done ++ [subst_cell nodata x])).
  rewrite length_app, Nat.add_1_r, <- !app_assoc in IH. cbn [app] in IH.
  change (subst_row nodata (x :: rest))
    with (subst_cell nodata x :: subst_row nodata rest).
  rewrite <- IH. unfold subst_cell.
  destruct (isclose x nodata); [|reflexivity].
  rewrite insert_app_r_alt by reflexivity. now rewrite Nat.sub_diag.
Qed.

Lemma row_loop_spec nodata (row : list pyfloat) :
  row_loop nodata (seq 0 (length (Some <$> row))) (Some <$> row)
  = Ok (subst_row nodata row).
Proof. rewrite length_fmap. apply (row_loop_from nodata row []). Qed.

Lemma elev_loop_from nodata (rest : list (list pyfloat)) :
  ∀ done : list (list cell),
  elev_loop nodata (seq (length done) (length rest)) (done ++ tolist rest)
  = Ok (done ++ (subst_row nodata <$> rest)).
Proof.
  induction rest as [|row rest IH]; intros done; [reflexivity|].
  cbn [length seq elev_loop tolist fmap list_fmap].
  rewrite list_lookup_middle by reflexivity.
  rewrite row_loop_spec. cbn [mbind result_bind].
  rewrite insert_app_r_alt by reflexivity. rewrite Nat.sub_diag. cbn [insert list_insert].
  specialize (IH (done ++ [subst_row nodata row])).
  rewrite length_app, Nat.add_1_r, <- !app_assoc in IH. exact IH.
Qed.

Lemma replace_nodata_spec nodata (a : list (list pyfloat)) :
  replace_nodata nodata (tolist a) = Ok (subst_row nodata <$> a).
Proof.
  unfold replace_nodata, tolist. rewrite length_fmap.
  apply (elev_loop_from nodata a []).
Qed.

(** ** What a successful run has done *)



Section Runs.

Variable read : SourceRaster → Z → Z → result (list (list pyfloat)).

Lemma resample_inv src args doc :
  resample read src args = Ok doc →
  ∃ band1 xs ys,
    read src (ny args) (nx args) = Ok band1 ∧
    linspace (bounds src).1.1.1 (bounds src).1.2 (nx args) = Ok xs ∧
    linspace (bounds src).2 (bounds src).1.1.2 (ny args) = Ok ys ∧
    doc = {| bbox := [(bounds src).1.1.1; (bounds src).1.1.2;
                      (bounds src).1.2; (bounds src).2];
             ncols := nx args; nrows := ny args;
             lons := xs; lats := ys;
             elev := grid_elev (effective_nodata src args) band1 |}.
Proof.
  unfold resample. intros H.
  apply bind_Ok in H as (band1 & Hread & H).
  apply fmap_Ok in Hread as (a & Hread & ->). unfold astype_float32 in H.
  destruct (bounds src) as [[[l b] r] t]. cbn [fst snd].
  apply bind_Ok in H as (xs & Hxs & H).
  apply bind_Ok in H as (ys & Hys & H).
  apply bind_Ok in H as (el & Hel & H).
  injection H as <-.
  exists a, xs, ys. repeat split; try assumption.
  f_equal. unfold grid_elev.
  destruct (effective_nodata src args) as [nd|].
  - rewrite replace_nodata_spec in Hel. now injection Hel.
  - now injection Hel.
Qed.

Lemma main_inv args w w' :
  main read args w = (w', Ok ()) →
  ∃ src doc,
    datasets w !! input args = Some src ∧
    resample read src args = Ok doc ∧
    w' = write (output args) doc w.
Proof.
  unfold main. intros H.
  destruct (datasets w !! input args) as [src|]; [|discriminate].
  destruct (resample read src args) as [doc|e] eqn:Hdoc; [|discriminate].
  injection H as <-. now exists src, doc.
Qed.

Lemma written_doc args doc w :
  files (write (output args) doc w) !! output args = Some doc.
Proof. unfold write; cbn. apply lookup_insert_eq. Qed.

End Runs.

(** ** Nodata substitution *)





(** ** Shapes *)

Lemma linspace_neg start stop num : num < 0 → linspace start stop num = Raise ValueError.
Proof. intros H. unfold linspace. now rewrite (proj2 (Z.ltb_lt _ _) H). Qed.

Lemma linspace_nonneg start stop num :
  0 ≤ num → ∃ ys, linspace start stop num = Ok ys.
Proof.
  intros H. unfold linspace. rewrite (proj2 (Z.ltb_ge _ _) H). eauto.
Qed.

Lemma linspace_length start stop num ys :
  linspace start stop num = Ok ys → Z.of_nat (length ys) = num.
Proof.
  unfold linspace. destruct (Z.ltb_spec num 0) as [|Hnum]; [discriminate|].
  intros [= <-].
  assert (Hlen : ∀ f g : pyfloat → pyfloat,
            length (g <$> (f <$> arange (Z.to_nat num))) = Z.to_nat num).
  { intros f g. unfold arange. now rewrite !length_fmap, length_seq. }
  destruct (1 <? num); rewrite ?length_insert;
    destruct (0 <? num - 1); try destruct (feqb _ _); rewrite Hlen; lia.
Qed.

Lemma bilinear_read_shape : reader_shape bilinear_read.
Proof.
  intros src n_rows n_cols a. unfold bilinear_read.
  destruct (_ || _); [discriminate|].
  destruct (Z.ltb_spec n_rows 0); [discriminate|].
  destruct (Z.ltb_spec n_cols 0); [discriminate|].
  cbn [orb]. intros [= <-]. split.
  - rewrite length_fmap, length_seq. lia.
  - apply Forall_fmap, Forall_forall. intros i _. cbn.
    rewrite length_fmap, length_seq. lia.
Qed.

Lemma tolist_shape (a : list (list pyfloat)) n :
  Forall (λ row, Z.of_nat (length row) = n) a →
  Forall (λ row, Z.of_nat (length row) = n) (tolist a).
Proof.
  intros H. unfold tolist. apply Forall_fmap.
  eapply Forall_impl; [exact H|]. intros row Hrow. cbn. now rewrite length_fmap.
Qed.

Lemma subst_shape nodata (a : list (list pyfloat)) n :
  Forall (λ row, Z.of_nat (length row) = n) a →
  Forall (λ row, Z.of_nat (length row) = n) (subst_row nodata <$> a).
Proof.
  intros H. apply Forall_fmap.
  eapply Forall_impl; [exact H|]. intros row Hrow. cbn.
  unfold subst_row. now rewrite length_fmap.
Qed.

(** C8.  The document written by a successful run has [ncols] longitudes,
    [nrows] latitudes and [nrows] rows of [ncols] cells, [ncols] and
    [nrows] being the requested [nx] and [ny]; the shape of [elev] is the
    one of the array that [read] returns for [out_shape]. *)
Theorem output_dimensions read args w w' :
  reader_shape read →
  main read args w = (w', Ok ()) →
  ∃ doc,
    files w' !! output args = Some doc ∧
    ncols doc = nx args ∧ nrows doc = ny args ∧
    Z.of_nat (length (lons doc)) = nx args ∧
    Z.of_nat (length (lats doc)) = ny args ∧
    Z.of_nat (length (elev doc)) = ny args ∧
    Forall (λ row, Z.of_nat (length row) = nx args) (elev doc).
Proof.
  intros Hshape Hrun.
  apply main_inv in Hrun as (src & doc & Hsrc & Hdoc & ->).
  apply resample_inv in Hdoc as (band1 & xs & ys & Hread & Hxs & Hys & ->).
  eexists. split; [apply written_doc|]. cbn [ncols nrows lons lats elev].
  apply linspace_length in Hxs, Hys.
  apply Hshape in Hread as [Hrows Hcols].
  repeat split; try assumption.
  - destruct (effective_nodata src args); cbn [grid_elev];
      unfold tolist; now rewrite length_fmap.
  - destruct (effective_nodata src args); cbn [grid_elev];
      [now apply subst_shape | now apply tolist_shape].
Qed.

Lemma output_dimensions_witness :
  ∃ doc,
    files (main bilinear_read args33 world22).1 !! output args33 = Some doc ∧
    ncols doc = nx args33 ∧ nrows doc = ny args33 ∧
    Z.of_nat (length (lons doc)) = nx args33 ∧
    Z.of_nat (length (lats doc)) = ny args33 ∧
    Z.of_nat (length (elev doc)) = ny args33 ∧
    Forall (λ row, Z.of_nat (length row) = nx args33) (elev doc).
Proof.
  apply (output_dimensions bilinear_read args33 world22).
  - exact bilinear_read_shape.
  - vm_compute. reflexivity.
Defined.

(** ** Requests and sources the run cannot serve *)

(** C3, as stated, fails: asked for zero columns, the run does not stop
    with [InvalidDimension]; it writes a document with no longitude and
    three empty rows. *)
Lemma zero_columns_are_written :
  nx args_zero ≤ 0 ∧
  main bilinear_read args_zero world22
    = (write (output args_zero) grid_zero world22, Ok ()) ∧
  main bilinear_read args_zero world22 ≠ (world22, Raise InvalidDimension) ∧
  files (main bilinear_read args_zero world22).1 !! output args_zero
    = Some grid_zero.
Proof.
  split; [cbn; lia|].
  assert (H : main bilinear_read args_zero world22
              = (write (output args_zero) grid_zero world22, Ok ()))
    by (vm_compute; reflexivity).
  split; [exact H|]. rewrite H. split; [discriminate|].
  apply written_doc.
Qed.

(** C3, amended.  The script checks no dimension.  With a negative [nx]
    or [ny] the run fails and writes nothing: the failure is the one of
    the reader or, when the reader returns an array, the [ValueError] of
    [np.linspace]. *)
Theorem negative_dimension_fails read args w :
  nx args < 0 ∨ ny args < 0 →
  ∃ e, main read args w = (w, Raise e) ∧
       (∀ src a, datasets w !! input args = Some src →
                 read src (ny args) (nx args) = Ok a → e = ValueError).
Proof.
  intros Hneg. unfold main.
  destruct (datasets w !! input args) as [src|]; [|now exists RasterioIOError].
  unfold resample.
  destruct (read src (ny args) (nx args)) as [a|e] eqn:Hread;
    cbn [fmap result_fmap mbind result_bind].
  2:{ exists e. split; [reflexivity|].
      intros src' a' [= <-] Ha'. congruence. }
  exists ValueError. split; [|reflexivity].
  destruct (bounds src) as [[[l b] r] t].
  destruct (Z.ltb_spec (nx args) 0) as [Hnx|Hnx].
  - now rewrite (linspace_neg l r _ Hnx).
  - assert (Hny : ny args < 0) by lia.
    rewrite (linspace_neg t b _ Hny).
    now destruct (linspace_nonneg l r _ Hnx) as [xs ->].
Qed.

Lemma negative_dimension_fails_witness :
  ∃ e, main bilinear_read args_negative world22 = (world22, Raise e) ∧
       (∀ src a, datasets world22 !! input args_negative = Some src →
                 bilinear_read src (ny args_negative) (nx args_negative) = Ok a →
                 e = ValueError).
Proof.
  apply (negative_dimension_fails bilinear_read args_negative world22).
  left. cbn. lia.
Defined.

(** ** Arithmetic on finite values *)

Lemma Qeq_bool_false (a b : Q) : ¬ (a == b)%Q → Qeq_bool a b = false.
Proof.
  intros H. destruct (Qeq_bool a b) eqn:E; [|reflexivity].
  now apply Qeq_bool_iff in E.
Qed.

Lemma feqb_Fin (a b : Q) : (a == b)%Q → feqb (Fin a) (Fin b) = true.
Proof. intros H. now apply Qeq_bool_iff. Qed.

Lemma inject_Z_nonzero (z : Z) : z ≠ 0 → ¬ (inject_Z z == 0)%Q.
Proof. intros H E. apply H. unfold Qeq in E; cbn in E. lia. Qed.

(** ** The axes *)

Lemma arange_lookup (num j : nat) :
  (j < num)%nat → arange num !! j = Some (of_int (Z.of_nat j)).
Proof.
  intros H. unfold arange. rewrite list_lookup_fmap, lookup_seq_lt by assumption.
  reflexivity.
Qed.

Lemma linspace_step (l r : Q) n :
  2 ≤ n →
  fdiv (fsub (Fin r) (Fin l)) (of_int (n - 1))
  = Fin (Qred (Qred (r + - l) / inject_Z (n - 1))).
Proof.
  intros Hn. cbn.
  now rewrite (Qeq_bool_false (inject_Z (n - 1)) 0) by (apply inject_Z_nonzero; lia).
Qed.

Lemma linspace_single (l r : Q) ys :
  linspace (Fin l) (Fin r) 1 = Ok ys → ∃ v, ys = [v] ∧ feqb v (Fin l) = true.
Proof.
  cbn. intros [= <-]. eexists. split; [reflexivity|].
  apply feqb_Fin. rewrite !Qred_correct. ring.
Qed.

(** ** The scenario *)

(** C5.  Resampling the 2x2 raster [[10, 20], [30, 40]] with bounds
    [(0, 0, 1, 1)] and no nodata to 3x3 writes [lons = [0, 0.5, 1]],
    [lats = [1, 0.5, 0]], a centre cell of [elev] close to 25 (it is the
    mean of the four corners) and the four source values in the four
    corner cells. *)
Theorem scenario_2x2_to_3x3 :
  ∃ doc,
    main bilinear_read args33 world22 = (write (output args33) doc world22, Ok ()) ∧
    doc = grid33 ∧
    lons doc = [Fin 0; Fin (1 # 2); Fin 1] ∧
    lats doc = [Fin 1; Fin (1 # 2); Fin 0] ∧
    (∃ c, cell_at (elev doc) 1 1 = Some (Some c) ∧
          isclose c (of_int 25) = true ∧
          feqb c (fdiv (fadd (fadd (of_int 10) (of_int 20)) (fadd (of_int 30) (of_int 40))) (of_int 4)) = true) ∧
    cell_at (elev doc) 0 0 = Some <$> cell_at (band raster22) 0 0 ∧
    cell_at (elev doc) 0 2 = Some <$> cell_at (band raster22) 0 1 ∧
    cell_at (elev doc) 2 0 = Some <$> cell_at (band raster22) 1 0 ∧
    cell_at (elev doc) 2 2 = Some <$> cell_at (band raster22) 1 1.
Proof.
  exists grid33. split; [vm_compute; reflexivity|].
  repeat split. exists (of_int 25). repeat split.
Qed.

(** * Further properties of the script *)

(** ** Which cells the nodata loop touches *)



(** ** The axes *)

(** X6.  [lons], [lats] and [bbox] are determined by the bounds of the
    source and by [nx] and [ny]: two completed runs that agree on these
    write the same axes, whatever the readers, the bands, the nodata
    values and the paths; [bbox] is [left, bottom, right, top]. *)
Theorem axes_depend_on_bounds_only
  read1 read2 args1 args2 w1 w2 w1' w2' src1 src2 :
  datasets w1 !! input args1 = Some src1 →
  datasets w2 !! input args2 = Some src2 →
  bounds src1 = bounds src2 →
  nx args1 = nx args2 → ny args1 = ny args2 →
  main read1 args1 w1 = (w1', Ok ()) →
  main read2 args2 w2 = (w2', Ok ()) →
  ∃ doc1 doc2,
    files w1' !! output args1 = Some doc1 ∧
    files w2' !! output args2 = Some doc2 ∧
    lons doc1 = lons doc2 ∧ lats doc1 = lats doc2 ∧
    bbox doc1 = bbox doc2 ∧
    bbox doc1 = [(bounds src1).1.1.1; (bounds src1).1.1.2;
                 (bounds src1).1.2; (bounds src1).2].
Proof.
  intros Hs1 Hs2 Hb Hnx Hny Hrun1 Hrun2.
  apply main_inv in Hrun1 as (s1 & doc1 & Hs1' & Hdoc1 & ->).
  apply main_inv in Hrun2 as (s2 & doc2 & Hs2' & Hdoc2 & ->).
  rewrite Hs1 in Hs1'. injection Hs1' as <-.
  rewrite Hs2 in Hs2'. injection Hs2' as <-.
  apply resample_inv in Hdoc1 as (a1 & xs1 & ys1 & _ & Hxs1 & Hys1 & ->).
  apply resample_inv in Hdoc2 as (a2 & xs2 & ys2 & _ & Hxs2 & Hys2 & ->).
  rewrite <- Hb, <- Hnx in Hxs2. rewrite <- Hb, <- Hny in Hys2.
  rewrite Hxs1 in Hxs2. rewrite Hys1 in Hys2.
  injection Hxs2 as <-. injection Hys2 as <-.
  eexists _, _. split; [apply written_doc|]. split; [apply written_doc|].
  cbn [lons lats bbox]. rewrite <- Hb. repeat split.
Qed.

Lemma linspace_last start stop n ys :
  2 ≤ n → linspace start stop n = Ok ys →
  ys !! Z.to_nat (n - 1) = Some stop.
Proof.
  intros Hn H. assert (Hlen := linspace_length _ _ _ _ H).
  revert H. unfold linspace.
  destruct (Z.ltb_spec n 0); [lia|].
  destruct (Z.ltb_spec 1 n); [|lia].
  intros [= E]. rewrite <- E in Hlen |- *. rewrite length_insert in Hlen.
  apply list_lookup_insert_eq. lia.
Qed.

(** X7.  With at least two columns the last longitude is the right bound
    itself, and with at least two rows the last latitude is the bottom
    bound itself, whatever the bounds are (NaN and infinities included):
    [np.linspace] stores [stop] in the last place. *)
Theorem last_coordinate_is_the_bound read args w w' src :
  datasets w !! input args = Some src →
  main read args w = (w', Ok ()) →
  ∃ doc,
    files w' !! output args = Some doc ∧
    (2 ≤ nx args → lons doc !! Z.to_nat (nx args - 1) = Some (bounds src).1.2) ∧
    (2 ≤ ny args → lats doc !! Z.to_nat (ny args - 1) = Some (bounds src).1.1.2).
Proof.
  intros Hsrc Hrun.
  apply main_inv in Hrun as (src' & doc & Hsrc' & Hdoc & ->).
  rewrite Hsrc in Hsrc'. injection Hsrc' as <-.
  apply resample_inv in Hdoc as (band1 & xs & ys & _ & Hxs & Hys & ->).
  eexists. split; [apply written_doc|]. cbn [lons lats]. split.
  - intros Hn. now apply linspace_last with (start := (bounds src).1.1.1).
  - intros Hn. now apply linspace_last with (start := (bounds src).2).
Qed.

Lemma linspace_constant (l r : Q) n ys :
  (r == l)%Q →
  linspace (Fin l) (Fin r) n = Ok ys →
  ∀ j : nat, Z.of_nat j < n → py_eq_at ys j (Fin l).
Proof.
  intros Hrl Hys j Hj.
  destruct (Z.le_gt_cases n 1) as [Hn|Hn].
  - assert (n = 1) as -> by lia.
    apply linspace_single in Hys as (v & -> & Hv).
    replace j with 0%nat by lia. now exists v.
  - assert (Hm : ¬ (inject_Z (n - 1) == 0)%Q) by (apply inject_Z_nonzero; lia).
    assert (Hnz : Qeq_bool (inject_Z (n - 1)) 0 = false) by now apply Qeq_bool_false.
    revert Hys. unfold linspace.
    rewrite (linspace_step l r n) by lia.
    destruct (Z.ltb_spec n 0); [lia|].
    destruct (Z.ltb_spec 0 (n - 1)); [|lia].
    destruct (Z.ltb_spec 1 n); [|lia].
    cbn [feqb].
    assert (Hzero : Qeq_bool (Qred (Qred (r + - l) / inject_Z (n - 1))) 0 = true).
    { apply Qeq_bool_iff. rewrite !Qred_correct, Hrl. field. exact Hm. }
    rewrite Hzero. intros [= <-].
    destruct (Z.eq_dec (Z.of_nat j) (n - 1)) as [E|E].
    + exists (Fin r). replace j with (Z.to_nat (n - 1)) by lia. split.
      * apply list_lookup_insert_eq. unfold arange.
        rewrite !length_fmap, length_seq. lia.
      * now apply feqb_Fin.
    + eexists. split.
      * rewrite list_lookup_insert_ne by lia.
        rewrite !list_lookup_fmap, arange_lookup by lia. reflexivity.
      * cbn. rewrite Hnz. cbn. apply Qeq_bool_iff.
        rewrite !Qred_correct, Hrl. field. exact Hm.
Qed.

(** X8.  The bounds are not validated.  A box of zero width
    ([right == left]) gives [nx] longitudes all equal to [left], and one
    of zero height gives [ny] latitudes all equal to [top]. *)
Theorem degenerate_box_gives_constant_axes read args w w' src (l b r t : Q) :
  datasets w !! input args = Some src →
  bounds src = (Fin l, Fin b, Fin r, Fin t) →
  main read args w = (w', Ok ()) →
  ∃ doc,
    files w' !! output args = Some doc ∧
    ((r == l)%Q → ∀ j : nat, Z.of_nat j < nx args → py_eq_at (lons doc) j (Fin l)) ∧
    ((b == t)%Q → ∀ i : nat, Z.of_nat i < ny args → py_eq_at (lats doc) i (Fin t)).
Proof.
  intros Hsrc Hb Hrun.
  apply main_inv in Hrun as (src' & doc & Hsrc' & Hdoc & ->).
  rewrite Hsrc in Hsrc'. injection Hsrc' as <-.
  apply resample_inv in Hdoc as (band1 & xs & ys & _ & Hxs & Hys & ->).
  rewrite Hb in Hxs, Hys. cbn [fst snd] in Hxs, Hys.
  eexists. split; [apply written_doc|]. cbn [lons lats]. split.
  - intros E. now apply linspace_constant with (r := r).
  - intros E. now apply linspace_constant with (r := b).
Qed.

(** ** The further properties on concrete runs *)


Lemma axes_depend_on_bounds_only_witness :
  ∃ doc1 doc2,
    files (main bilinear_read args33 world22).1 !! output args33 = Some doc1 ∧
    files (main bilinear_read args33_hole world_more).1 !! output args33_hole
      = Some doc2 ∧
    lons doc1 = lons doc2 ∧ lats doc1 = lats doc2 ∧
    bbox doc1 = bbox doc2 ∧
    bbox doc1 = [(bounds raster22).1.1.1; (bounds raster22).1.1.2;
                 (bounds raster22).1.2; (bounds raster22).2].
Proof.
  apply (axes_depend_on_bounds_only bilinear_read bilinear_read
           args33 args33_hole world22 world_more _ _ raster22 raster_hole).
  - vm_compute. reflexivity.
  - vm_compute. reflexivity.
  - reflexivity.
  - reflexivity.
  - reflexivity.
  - vm_compute. reflexivity.
  - vm_compute. reflexivity.
Defined.

Lemma last_coordinate_is_the_bound_witness :
  ∃ doc,
    files (main bilinear_read args_flipped world_more).1 !! output args_flipped
      = Some doc ∧
    lons doc !! 2%nat = Some (of_int 0) ∧
    lats doc !! 2%nat = Some (of_int 0).
Proof.
  destruct (last_coordinate_is_the_bound bilinear_read args_flipped world_more
              (main bilinear_read args_flipped world_more).1 raster_flipped)
    as (doc & Hdoc & Hlons & Hlats).
  - vm_compute. reflexivity.
  - vm_compute. reflexivity.
  - exists doc. split; [exact Hdoc|]. split.
    + apply Hlons. cbn. lia.
    + apply Hlats. cbn. lia.
Defined.

Lemma degenerate_box_gives_constant_axes_witness :
  ∃ doc,
    files (main bilinear_read args_point world_more).1 !! output args_point
      = Some doc ∧
    (∀ j : nat, Z.of_nat j < 3 → py_eq_at (lons doc) j (Fin 5)) ∧
    (∀ i : nat, Z.of_nat i < 3 → py_eq_at (lats doc) i (Fin 7)).
Proof.
  destruct (degenerate_box_gives_constant_axes bilinear_read args_point world_more
              (main bilinear_read args_point world_more).1 raster_point 5 7 5 7)
    as (doc & Hdoc & Hlons & Hlats).
  - vm_compute. reflexivity.
  - reflexivity.
  - vm_compute. reflexivity.
  - exists doc. split; [exact Hdoc|]. split.
    + apply Hlons. reflexivity.
    + apply Hlats. reflexivity.
Defined.


(** * Properties of the script in IEEE-754 arithmetic *)

Section OverBinary64.

Import IEEE.

(** ** The error monad and the nodata loop *)

Lemma ieee_bind_Ok {A B} (f : A → result B) (m : result A) (b : B) :
  m ≫= f = Ok b → ∃ a, m = Ok a ∧ f a = Ok b.
Proof. destruct m as [a|e]; [eauto | discriminate]. Qed.

Lemma ieee_fmap_Ok {A B} (f : A → B) (m : result A) (b : B) :
  f <$> m = Ok b → ∃ a, m = Ok a ∧ b = f a.
Proof. destruct m as [a|e]; simpl; [intros [= <-]; eauto | discriminate]. Qed.

Lemma ieee_row_loop_from nodata (rest : list pyfloat) : ∀ done : list cell,
  row_loop nodata (seq (length done) (length rest)) (done ++ (Some <$> rest))
  = Ok (done ++ subst_row nodata rest).
Proof.
  induction rest as [|x rest IH]; intros done; [reflexivity|].
  cbn [length seq row_loop fmap list_fmap].
  rewrite list_lookup_middle by reflexivity.
  cbn [isclose_cell mbind result_bind].
  specialize (IH (done ++ [subst_cell nodata x])).
  rewrite length_app, Nat.add_1_r, <- !app_assoc in IH. cbn [app] in IH.
  change (subst_row nodata (x :: rest))
    with (subst_cell nodata x :: subst_row nodata rest).
  rewrite <- IH. unfold subst_cell.
  destruct (isclose x nodata); [|reflexivity].
  rewrite insert_app_r_alt by reflexivity. now rewrite Nat.sub_diag.
Qed.

Lemma ieee_row_loop_spec nodata (row : list pyfloat) :
  row_loop nodata (seq 0 (length (Some <$> row))) (Some <$> row)
  = Ok (subst_row nodata row).
Proof. rewrite length_fmap. apply (ieee_row_loop_from nodata row []). Qed.

Lemma ieee_elev_loop_from nodata (rest : list (list pyfloat)) :
  ∀ done : list (list cell),
  elev_loop nodata (seq (length done) (length rest)) (done ++ tolist rest)
  = Ok (done ++ (subst_row nodata <$> rest)).
Proof.
  induction rest as [|row rest IH]; intros done; [reflexivity|].
  cbn [length seq elev_loop tolist fmap list_fmap].
  rewrite list_lookup_middle by reflexivity.
  rewrite ieee_row_loop_spec. cbn [mbind result_bind].
  rewrite insert_app_r_alt by reflexivity. rewrite Nat.sub_diag. cbn [insert list_insert].
  specialize (IH (done ++ [subst_row nodata row])).
  rewrite length_app, Nat.add_1_r, <- !app_assoc in IH. exact IH.
Qed.

Lemma ieee_replace_nodata_spec nodata (a : list (list pyfloat)) :
  replace_nodata nodata (tolist a) = Ok (subst_row nodata <$> a).
Proof.
  unfold replace_nodata, tolist. rewrite length_fmap.
  apply (ieee_elev_loop_from nodata a []).
Qed.

Lemma ieee_cell_at_subst nodata (a : list (list pyfloat)) i j :
  cell_at (subst_row nodata <$> a) i j = subst_cell nodata <$> cell_at a i j.
Proof.
  unfold cell_at. rewrite list_lookup_fmap.
  destruct (a !! i) as [row|]; [|reflexivity].
  cbn. unfold subst_row. apply list_lookup_fmap.
Qed.

Lemma ieee_cell_at_tolist (a : list (list pyfloat)) i j :
  cell_at (tolist a) i j = Some <$> cell_at a i j.
Proof.
  unfold cell_at, tolist. rewrite list_lookup_fmap.
  destruct (a !! i) as [row|]; [|reflexivity].
  cbn. apply list_lookup_fmap.
Qed.

Lemma ieee_cell_at_cast (a : list (list pyfloat)) i j :
  cell_at (astype_float32 a) i j = float32 <$> cell_at a i j.
Proof.
  unfold cell_at, astype_float32. rewrite list_lookup_fmap.
  destruct (a !! i) as [row|]; [|reflexivity].
  cbn. apply list_lookup_fmap.
Qed.

(** ** What a run has done *)

Lemma ieee_linspace_neg start stop num :
  num < 0 → linspace start stop num = Raise ValueError.
Proof. intros H. unfold linspace. now rewrite (proj2 (Z.ltb_lt _ _) H). Qed.

Lemma ieee_linspace_nonneg start stop num :
  0 ≤ num → ∃ ys, linspace start stop num = Ok ys.
Proof.
  intros H. unfold linspace. rewrite (proj2 (Z.ltb_ge _ _) H). eauto.
Qed.

Section Runs.

Variable read : SourceRaster → Z → Z → result (list (list pyfloat)).

Lemma ieee_resample_inv src args doc :
  resample read src args = Ok doc →
  ∃ a xs ys,
    read src (ny args) (nx args) = Ok a ∧
    linspace (bounds src).1.1.1 (bounds src).1.2 (nx args) = Ok xs ∧
    linspace (bounds src).2 (bounds src).1.1.2 (ny args) = Ok ys ∧
    doc = {| bbox := [(bounds src).1.1.1; (bounds src).1.1.2;
                      (bounds src).1.2; (bounds src).2];
             ncols := nx args; nrows := ny args;
             lons := xs; lats := ys;
             elev := grid_elev (effective_nodata src args) (astype_float32 a) |}.
Proof.
  unfold resample. intros H.
  apply ieee_bind_Ok in H as (band1 & Hread & H).
  apply ieee_fmap_Ok in Hread as (a & Hread & ->).
  destruct (bounds src) as [[[l b] r] t]. cbn [fst snd].
  apply ieee_bind_Ok in H as (xs & Hxs & H).
  apply ieee_bind_Ok in H as (ys & Hys & H).
  apply ieee_bind_Ok in H as (el & Hel & H).
  injection H as <-.
  exists a, xs, ys. repeat split; try assumption.
  f_equal. unfold grid_elev, effective_nodata.
  destruct (nodata_arg args) as [nd|]; [|destruct (src_nodata src) as [nd|]].
  - rewrite ieee_replace_nodata_spec in Hel. now injection Hel.
  - rewrite ieee_replace_nodata_spec in Hel. now injection Hel.
  - now injection Hel.
Qed.

Lemma ieee_resample_Ok src args a :
  read src (ny args) (nx args) = Ok a →
  0 ≤ nx args → 0 ≤ ny args →
  ∃ doc, resample read src args = Ok doc ∧
         elev doc = grid_elev (effective_nodata src args) (astype_float32 a).
Proof.
  intros Hread Hnx Hny. unfold resample. rewrite Hread.
  cbn [fmap result_fmap mbind result_bind].
  destruct (bounds src) as [[[l b] r] t].
  destruct (ieee_linspace_nonneg l r _ Hnx) as [xs ->].
  destruct (ieee_linspace_nonneg t b _ Hny) as [ys ->].
  cbn [mbind result_bind]. unfold effective_nodata.
  destruct (nodata_arg args) as [nd|]; [|destruct (src_nodata src) as [nd|]].
  - rewrite ieee_replace_nodata_spec. cbn [mbind result_bind]. eauto.
  - rewrite ieee_replace_nodata_spec. cbn [mbind result_bind]. eauto.
  - cbn [mbind result_bind]. eauto.
Qed.

Lemma ieee_effective_nodata_in_effect src args nd :
  in_effect src args nd → effective_nodata src args = Some nd.
Proof. unfold effective_nodata. now intros [-> | [-> ->]]. Qed.

Lemma ieee_main_inv args w w' :
  main read args w = (w', Ok ()) →
  ∃ src doc,
    fs w !! input args = Some (Raster src) ∧
    resample read src args = Ok doc ∧
    writable w (output args) = true ∧
    fs w' = <[output args := Document doc]> (fs w) ∧
    writable w' = writable w.
Proof.
  unfold main, open_raster, dump. intros H.
  destruct (fs w !! input args) as [[src|d]|]; try discriminate.
  destruct (resample read src args) as [doc|e] eqn:Hdoc; [|discriminate].
  destruct (writable w (output args)) eqn:Hopen; [|discriminate].
  injection H as <-. now exists src, doc.
Qed.

End Runs.

Lemma ieee_written args doc w w' :
  fs w' = <[output args := Document doc]> (fs w) →
  fs w' !! output args = Some (Document doc).
Proof. intros ->. apply lookup_insert_eq. Qed.

(** ** Nodata substitution *)

(** C1.  In a completed run whose nodata value in effect is [nd] (the
    [--nodata] option, else the value of the source), with [band1] the
    array read and cast to float32: every cell of [band1] whose value [x]
    satisfies [np.isclose(x, nd)] holds [None] in the written [elev], and
    no float [v] left in [elev] is close to [nd]; in particular Python's
    [v == nd] is false. *)
Theorem close_cells_become_None read args w w' src nd :
  fs w !! input args = Some (Raster src) →
  in_effect src args nd →
  main read args w = (w', Ok ()) →
  ∃ doc a,
    fs w' !! output args = Some (Document doc) ∧
    read src (ny args) (nx args) = Ok a ∧
    (∀ i j x, cell_at (astype_float32 a) i j = Some x → isclose x nd = true →
              cell_at (elev doc) i j = Some None) ∧
    (∀ i j v, cell_at (elev doc) i j = Some (Some v) →
              isclose v nd = false ∧ feqb v nd = false).
Proof.
  intros Hsrc Hnd Hrun.
  apply ieee_main_inv in Hrun as (src' & doc & Hsrc' & Hdoc & _ & Hfs & _).
  rewrite Hsrc in Hsrc'. injection Hsrc' as <-.
  apply ieee_resample_inv in Hdoc as (a & xs & ys & Hread & _ & _ & ->).
  eexists _, a. split; [eapply ieee_written; exact Hfs|].
  split; [assumption|]. cbn [elev].
  rewrite (ieee_effective_nodata_in_effect src args nd Hnd). cbn [grid_elev]. split.
  - intros i j x Hx Hclose. rewrite ieee_cell_at_subst, Hx.
    cbn [fmap option_fmap option_map]. unfold subst_cell. now rewrite Hclose.
  - intros i j v Hv. rewrite ieee_cell_at_subst in Hv.
    destruct (cell_at (astype_float32 a) i j) as [x|]; [|discriminate].
    cbn [fmap option_fmap option_map] in Hv. injection Hv as Hv.
    unfold subst_cell in Hv.
    destruct (isclose x nd) eqn:Hx; [discriminate|]. injection Hv as <-.
    split; [exact Hx|]. unfold isclose in Hx.
    now apply orb_false_elim in Hx.
Qed.

Lemma close_cells_become_None_witness :
  ∃ doc,
    fs (main bilinear_read (request 2 2 None) (world_of "data/dem.tif" raster_hole)).1
      !! "data/grid.json" = Some (Document doc) ∧
    cell_at (elev doc) 0 0 = Some None ∧
    (∀ i j v, cell_at (elev doc) i j = Some (Some v) →
              feqb v (of_int (-9999)) = false).
Proof.
  destruct (close_cells_become_None bilinear_read (request 2 2 None)
              (world_of "data/dem.tif" raster_hole)
              (main bilinear_read (request 2 2 None)
                 (world_of "data/dem.tif" raster_hole)).1
              raster_hole (of_int (-9999)))
    as (doc & a & Hdoc & Hread & Hclose & Hleft).
  - vm_compute. reflexivity.
  - right. split; reflexivity.
  - vm_compute. reflexivity.
  - exists doc. split; [exact Hdoc|]. split.
    + apply (Hclose 0%nat 0%nat (of_int (-9999))).
      * vm_compute in Hread. injection Hread as <-. vm_compute. reflexivity.
      * vm_compute. reflexivity.
    + intros i j v Hv. now apply (Hleft i j v).
Defined.

(** X3.  [elev] has a cell exactly where the array read has one, and every
    value of the array read and cast to float32 that is not close to the
    nodata value in effect (or every value, when there is none) is written
    unchanged at its place. *)
Theorem other_cells_are_kept read args w w' src :
  fs w !! input args = Some (Raster src) →
  main read args w = (w', Ok ()) →
  ∃ doc a,
    fs w' !! output args = Some (Document doc) ∧
    read src (ny args) (nx args) = Ok a ∧
    (∀ i j, cell_at (elev doc) i j = None ↔ cell_at a i j = None) ∧
    (∀ i j x, cell_at (astype_float32 a) i j = Some x →
       (∀ nd, in_effect src args nd → isclose x nd = false) →
       cell_at (elev doc) i j = Some (Some x)).
Proof.
  intros Hsrc Hrun.
  apply ieee_main_inv in Hrun as (src' & doc & Hsrc' & Hdoc & _ & Hfs & _).
  rewrite Hsrc in Hsrc'. injection Hsrc' as <-.
  apply ieee_resample_inv in Hdoc as (a & xs & ys & Hread & _ & _ & ->).
  eexists _, a. split; [eapply ieee_written; exact Hfs|].
  split; [assumption|]. cbn [elev].
  assert (Hnone : ∀ i j, cell_at (astype_float32 a) i j = None ↔ cell_at a i j = None).
  { intros i j. rewrite ieee_cell_at_cast. now destruct (cell_at a i j). }
  destruct (effective_nodata src args) as [nd|] eqn:Hnd; cbn [grid_elev]; split.
  - intros i j. rewrite <- Hnone, ieee_cell_at_subst.
    now destruct (cell_at (astype_float32 a) i j).
  - intros i j x Hx Hfar. rewrite ieee_cell_at_subst, Hx.
    cbn [fmap option_fmap option_map]. unfold subst_cell.
    rewrite Hfar; [reflexivity|].
    unfold effective_nodata in Hnd. unfold in_effect.
    destruct (nodata_arg args); [left|right]; [congruence|now split].
  - intros i j. rewrite <- Hnone, ieee_cell_at_tolist.
    now destruct (cell_at (astype_float32 a) i j).
  - intros i j x Hx _. now rewrite ieee_cell_at_tolist, Hx.
Qed.

Lemma other_cells_are_kept_witness :
  ∃ doc,
    fs (main bilinear_read (request 2 2 None) (world_of "data/dem.tif" raster_hole)).1
      !! "data/grid.json" = Some (Document doc) ∧
    cell_at (elev doc) 0 1 = Some (Some (of_int 20)) ∧
    cell_at (elev doc) 1 0 = Some (Some (of_int 30)) ∧
    cell_at (elev doc) 1 1 = Some (Some (of_int 40)).
Proof.
  destruct (other_cells_are_kept bilinear_read (request 2 2 None)
              (world_of "data/dem.tif" raster_hole)
              (main bilinear_read (request 2 2 None)
                 (world_of "data/dem.tif" raster_hole)).1
              raster_hole)
    as (doc & a & Hdoc & Hread & _ & Hkept).
  - vm_compute. reflexivity.
  - vm_compute. reflexivity.
  - vm_compute in Hread. injection Hread as <-.
    assert (Hnd : ∀ x, isclose x (of_int (-9999)) = false →
              ∀ nd, in_effect raster_hole (request 2 2 None) nd → isclose x nd = false).
    { intros x Hx nd [H|[_ H]]; [discriminate H|]. injection H as <-. exact Hx. }
    exists doc. split; [exact Hdoc|]. repeat split.
    + apply Hkept; [vm_compute; reflexivity|]. apply Hnd. vm_compute. reflexivity.
    + apply Hkept; [vm_compute; reflexivity|]. apply Hnd. vm_compute. reflexivity.
    + apply Hkept; [vm_compute; reflexivity|]. apply Hnd. vm_compute. reflexivity.
Defined.

(** ** The axes *)




Lemma ieee_feqb_refl x : isfinite x = true → feqb x x = true.
Proof.
  destruct x as [s|s| |s m e]; try discriminate; intros _; [reflexivity|].
  unfold feqb, SFeqb, SFcompare.
  rewrite Z.compare_refl, Pos.compare_cont_refl. now destruct s.
Qed.


Lemma ieee_fsub_finite x y :
  isfinite (fsub x y) = true → isfinite x = true ∧ isfinite y = true.
Proof.
  destruct x as [s|s| |s m e], y as [s'|s'| |s' m' e']; cbn;
    try (split; reflexivity); try discriminate;
    destruct s, s'; cbn; discriminate.
Qed.


(** [0 * d + start == start] when [d] is finite. *)
Lemma ieee_first_point d start :
  isfinite d = true → isfinite start = true →
  feqb (fadd (fmul (of_int 0) d) start) start = true.
Proof.
  intros Hd Hstart.
  destruct d as [sd|sd| |sd md ed]; try discriminate;
    destruct start as [ss|ss| |ss ms es]; try discriminate;
    try (destruct sd, ss; reflexivity);
    try (destruct sd; apply (ieee_feqb_refl (S754_finite ss ms es)); reflexivity).
Qed.




(** C9, as stated, fails: with one column on the box from [-1e308] to
    [1e308] the width overflows and [lons] is [[NaN]], not [[left]]. *)
Lemma single_point_axis_overflows :
  ∃ doc,
    fs (main bilinear_read (request 1 1 None) (world_of "data/dem.tif" raster_wide)).1
      !! "data/grid.json" = Some (Document doc) ∧
    nx (request 1 1 None) = 1 ∧
    lons doc = [NaN] ∧
    feqb NaN (of_int (- 10 ^ 308)) = false.
Proof. eexists. split; [vm_compute; reflexivity|]. now vm_compute. Qed.

Lemma ieee_linspace_single start stop ys :
  linspace start stop 1 = Ok ys →
  ys = [fadd (fmul (of_int 0) (fsub stop start)) start].
Proof. cbn. now intros [= <-]. Qed.

(** C9, amended.  When the width [right - left] is finite in binary64
    (finite bounds, no overflow), a completed run asked for one column
    writes a one-element list [lons] with [lons[0] == left]; when
    [bottom - top] is finite, asked for one row it writes a one-element
    list [lats] with [lats[0] == top]. *)
Theorem single_point_axes_without_overflow read args w w' src l b r t :
  fs w !! input args = Some (Raster src) →
  bounds src = (l, b, r, t) →
  main read args w = (w', Ok ()) →
  ∃ doc,
    fs w' !! output args = Some (Document doc) ∧
    (nx args = 1 → isfinite (fsub r l) = true →
       ∃ v, lons doc = [v] ∧ feqb v l = true) ∧
    (ny args = 1 → isfinite (fsub b t) = true →
       ∃ v, lats doc = [v] ∧ feqb v t = true).
Proof.
  intros Hsrc Hb Hrun.
  apply ieee_main_inv in Hrun as (src' & doc & Hsrc' & Hdoc & _ & Hfs & _).
  rewrite Hsrc in Hsrc'. injection Hsrc' as <-.
  apply ieee_resample_inv in Hdoc as (a & xs & ys & _ & Hxs & Hys & ->).
  rewrite Hb in Hxs, Hys. cbn [fst snd] in Hxs, Hys.
  eexists. split; [eapply ieee_written; exact Hfs|]. cbn [lons lats]. split.
  - intros E Hd. rewrite E in Hxs. apply ieee_linspace_single in Hxs as ->.
    eexists. split; [reflexivity|].
    apply ieee_first_point; [assumption|]. now apply ieee_fsub_finite in Hd.
  - intros E Hd. rewrite E in Hys. apply ieee_linspace_single in Hys as ->.
    eexists. split; [reflexivity|].
    apply ieee_first_point; [assumption|]. now apply ieee_fsub_finite in Hd.
Qed.

Lemma single_point_axes_without_overflow_witness :
  ∃ doc,
    fs (main bilinear_read (request 1 1 None) (world_of "data/dem.tif" raster_unit)).1
      !! "data/grid.json" = Some (Document doc) ∧
    (∃ v, lons doc = [v] ∧ feqb v (of_int 0) = true) ∧
    (∃ v, lats doc = [v] ∧ feqb v (of_int 1) = true).
Proof.
  destruct (single_point_axes_without_overflow bilinear_read (request 1 1 None)
              (world_of "data/dem.tif" raster_unit)
              (main bilinear_read (request 1 1 None)
                 (world_of "data/dem.tif" raster_unit)).1
              raster_unit (of_int 0) (of_int 0) (of_int 1) (of_int 1))
    as (doc & Hdoc & Hlons & Hlats).
  - vm_compute. reflexivity.
  - reflexivity.
  - vm_compute. reflexivity.
  - exists doc. split; [exact Hdoc|]. split.
    + apply Hlons; reflexivity.
    + apply Hlats; reflexivity.
Defined.

(** ** Which nodata value is used *)

Lemma ieee_tolist_no_None (a : list (list pyfloat)) i j c :
  cell_at (tolist a) i j = Some c → c ≠ None.
Proof.
  rewrite ieee_cell_at_tolist.
  destruct (cell_at a i j); cbn; [|discriminate]. now intros [= <-].
Qed.

(** C4.  In a completed run, with [band1] the array read and cast to
    float32: when [--nodata v] is given, [elev] is [band1] with the cells
    close to [v] replaced, whatever nodata value the source holds; when it
    is not given and the source holds the nodata value [v], [elev] is
    [band1] with the cells close to [v] replaced; with neither, [elev] is
    [band1] cell by cell and holds no [None]. *)
Theorem nodata_precedence read args w w' src :
  fs w !! input args = Some (Raster src) →
  main read args w = (w', Ok ()) →
  ∃ doc a,
    fs w' !! output args = Some (Document doc) ∧
    read src (ny args) (nx args) = Ok a ∧
    (∀ v, nodata_arg args = Some v →
       elev doc = subst_row v <$> astype_float32 a) ∧
    (∀ v, nodata_arg args = None → src_nodata src = Some v →
       elev doc = subst_row v <$> astype_float32 a) ∧
    (nodata_arg args = None → src_nodata src = None →
       elev doc = tolist (astype_float32 a) ∧
       ∀ i j c, cell_at (elev doc) i j = Some c → c ≠ None).
Proof.
  intros Hsrc Hrun.
  apply ieee_main_inv in Hrun as (src' & doc & Hsrc' & Hdoc & _ & Hfs & _).
  rewrite Hsrc in Hsrc'. injection Hsrc' as <-.
  apply ieee_resample_inv in Hdoc as (a & xs & ys & Hread & _ & _ & ->).
  eexists _, a. split; [eapply ieee_written; exact Hfs|].
  split; [assumption|]. cbn [elev]. unfold effective_nodata.
  split; [|split].
  - now intros v ->.
  - now intros v -> ->.
  - intros -> ->. cbn [grid_elev]. split; [reflexivity|].
    intros i j c. apply ieee_tolist_no_None.
Qed.

(** The raster whose embedded nodata value is [-9999], run with
    [--nodata 20], without the option, and the raster without nodata
    value: the override replaces the cell holding [20] and leaves the
    [-9999] of the source in [elev]. *)
Lemma nodata_precedence_witness :
  (∃ doc,
     fs (main bilinear_read (request 2 2 (Some (of_int 20)))
           (world_of "data/dem.tif" raster_hole)).1
       !! "data/grid.json" = Some (Document doc) ∧
     src_nodata raster_hole = Some (of_int (-9999)) ∧
     elev doc = [[Some (of_int (-9999)); None];
                 [Some (of_int 30); Some (of_int 40)]]) ∧
  (∃ doc,
     fs (main bilinear_read (request 2 2 None)
           (world_of "data/dem.tif" raster_hole)).1
       !! "data/grid.json" = Some (Document doc) ∧
     elev doc = [[None; Some (of_int 20)];
                 [Some (of_int 30); Some (of_int 40)]]) ∧
  (∃ doc,
     fs (main bilinear_read (request 2 2 None)
           (world_of "data/dem.tif" raster_unit)).1
       !! "data/grid.json" = Some (Document doc) ∧
     elev doc = [[Some (of_int 10); Some (of_int 20)];
                 [Some (of_int 30); Some (of_int 40)]] ∧
     ∀ i j c, cell_at (elev doc) i j = Some c → c ≠ None).
Proof.
  split; [|split].
  - destruct (nodata_precedence bilinear_read (request 2 2 (Some (of_int 20)))
                (world_of "data/dem.tif" raster_hole)
                (main bilinear_read (request 2 2 (Some (of_int 20)))
                   (world_of "data/dem.tif" raster_hole)).1
                raster_hole)
      as (doc & a & Hdoc & Hread & Hover & _ & _).
    + vm_compute. reflexivity.
    + vm_compute. reflexivity.
    + exists doc. split; [exact Hdoc|]. split; [reflexivity|].
      rewrite (Hover (of_int 20)) by reflexivity.
      vm_compute in Hread. injection Hread as <-. vm_compute. reflexivity.
  - destruct (nodata_precedence bilinear_read (request 2 2 None)
                (world_of "data/dem.tif" raster_hole)
                (main bilinear_read (request 2 2 None)
                   (world_of "data/dem.tif" raster_hole)).1
                raster_hole)
      as (doc & a & Hdoc & Hread & _ & Hsource & _).
    + vm_compute. reflexivity.
    + vm_compute. reflexivity.
    + exists doc. split; [exact Hdoc|].
      rewrite (Hsource (of_int (-9999))) by reflexivity.
      vm_compute in Hread. injection Hread as <-. vm_compute. reflexivity.
  - destruct (nodata_precedence bilinear_read (request 2 2 None)
                (world_of "data/dem.tif" raster_unit)
                (main bilinear_read (request 2 2 None)
                   (world_of "data/dem.tif" raster_unit)).1
                raster_unit)
      as (doc & a & Hdoc & Hread & _ & _ & Hnone).
    + vm_compute. reflexivity.
    + vm_compute. reflexivity.
    + exists doc. split; [exact Hdoc|].
      destruct Hnone as [Hel Hno]; [reflexivity .. |].
      split; [|exact Hno].
      rewrite Hel. vm_compute in Hread. injection Hread as <-.
      vm_compute. reflexivity.
Defined.

(** ** How a run ends *)

(** X1.  How a run ends, for every reader: [RasterioIOError] when the
    input path holds no raster; else the reader's own exception when
    [read] raises; else [ValueError] (from [np.linspace]) when [nx] or
    [ny] is negative; else [OSError] when the output path cannot be
    opened for writing; in every other case the run completes.  In
    particular the nodata loop never raises. *)
Theorem run_outcome read args w :
  (main read args w).2 =
  match fs w !! input args with
  | Some (Raster src) =>
      match read src (ny args) (nx args) with
      | Raise e => Raise e
      | Ok _ =>
          if (nx args <? 0) || (ny args <? 0) then Raise ValueError
          else if writable w (output args) then Ok ()
          else Raise OSError
      end
  | _ => Raise RasterioIOError
  end.
Proof.
  unfold main, open_raster.
  destruct (fs w !! input args) as [[src|d]|] eqn:Hsrc; try reflexivity.
  destruct (read src (ny args) (nx args)) as [band1|e] eqn:Hread.
  - destruct (Z.ltb_spec (nx args) 0) as [Hnx|Hnx]; cbn [orb].
    + unfold resample. rewrite Hread. cbn [fmap result_fmap mbind result_bind].
      destruct (bounds src) as [[[l b] r] t].
      now rewrite (ieee_linspace_neg l r _ Hnx).
    + destruct (Z.ltb_spec (ny args) 0) as [Hny|Hny].
      * unfold resample. rewrite Hread. cbn [fmap result_fmap mbind result_bind].
        destruct (bounds src) as [[[l b] r] t].
        destruct (ieee_linspace_nonneg l r _ Hnx) as [xs ->].
        now rewrite (ieee_linspace_neg t b _ Hny).
      * destruct (ieee_resample_Ok read src args band1 Hread Hnx Hny) as (doc & -> & _).
        unfold dump. now destruct (writable w (output args)).
  - unfold resample. now rewrite Hread.
Qed.


(** ** Sources without samples *)






(** ** Resampling to the size of the source *)




End OverBinary64.
